(** * ApexFramework: the configuration holder of src/index.ts

    A shallow embedding of the class [ApexFramework] and of the part of
    the JavaScript object model its three methods rely on: objects that
    live in a store and are handed around by reference, object-literal
    spread, property assignment, template literals and [console.log]. *)

From stdpp Require Import gmap strings list fin_maps.

Open Scope string_scope.

(** ** The object model *)

Module JS.

(** The values a property of a configuration object holds at run time:
    the interface declares strings, and [Partial<ApexConfig>] adds
    [undefined]. Both are primitives (copied, never shared). *)
Inductive value : Type :=
  | VUndefined
  | VString (s : string).

#[global] Instance value_eq_dec : EqDecision value.
Proof. solve_decision. Defined.

(** [ToString], as applied to a substitution of a template literal.
    Strings are kept as the UTF-8 text of the source file. *)
Definition ToString (v : value) : string :=
  match v with
  | VUndefined => "undefined"
  | VString s => s
  end.

(** A plain object: its own enumerable data properties. *)
Abbreviation obj := (gmap string value).

(** References are indices into the store, in allocation order. *)
Definition loc : Type := nat.

(** An instance of the class: its one private field. *)
Record ApexFramework : Type := mkApexFramework { config : loc }.

(** The store of plain objects, the store of class instances, and the
    lines written to the console so far (oldest first). *)
Record World : Type := mkWorld {
  objects : list obj;
  instances : list ApexFramework;
  console : list string
}.

Definition empty_world : World := mkWorld [] [] [].

Definition with_objects (w : World) (os : list obj) : World :=
  mkWorld os (instances w) (console w).

Definition with_instances (w : World) (fs : list ApexFramework) : World :=
  mkWorld (objects w) fs (console w).

Definition with_console (w : World) (ls : list string) : World :=
  mkWorld (objects w) (instances w) ls.

(** Computations over the world; [None] stands for an access through a
    reference that the store does not hold. *)
Definition JS (A : Type) : Type := World -> option (A * World).

Definition ret {A} (x : A) : JS A := fun w => Some (x, w).

Definition bind {A B} (m : JS A) (k : A -> JS B) : JS B :=
  fun w => match m w with
           | Some (x, w') => k x w'
           | None => None
           end.

Notation "'let!' x ':=' m 'in' k" := (bind m (fun x => k))
  (at level 10, x name, m at level 100, k at level 200).
Notation "'do!' m 'in' k" := (bind m (fun _ => k))
  (at level 10, m at level 100, k at level 200).

(** Allocation of an object literal whose properties are [o]. *)
Definition new_object (o : obj) : JS loc :=
  fun w => Some (length (objects w), with_objects w (objects w ++ [o])).

(** The own properties of the object behind reference [a]. *)
Definition get_object (a : loc) : JS obj :=
  fun w => match objects w !! a with
           | Some o => Some (o, w)
           | None => None
           end.

(** Reading property [k] off the properties [o]: one that is not there
    reads as [undefined]. *)
Definition prop (o : obj) (k : string) : value :=
  default VUndefined (o !! k).

(** [a.k] *)
Definition get (a : loc) (k : string) : JS value :=
  let! o := get_object a in ret (prop o k).

(** [a.k = v] *)
Definition set_prop (a : loc) (k : string) (v : value) : JS unit :=
  fun w => match objects w !! a with
           | Some o => Some (tt, with_objects w (<[a := <[k := v]> o]> (objects w)))
           | None => None
           end.

(** [delete a.k] *)
Definition delete_prop (a : loc) (k : string) : JS unit :=
  fun w => match objects w !! a with
           | Some o => Some (tt, with_objects w (<[a := delete k o]> (objects w)))
           | None => None
           end.

(** The spread elements of an object literal, left to right: each source
    copies its own properties onto the literal, overriding what an
    earlier element put there. *)
Fixpoint copy_props (acc : obj) (srcs : list loc) : JS obj :=
  match srcs with
  | [] => ret acc
  | a :: rest => let! o := get_object a in copy_props (o ∪ acc) rest
  end.

(** [{ ...s1, ..., ...sn }] *)
Definition spread (srcs : list loc) : JS loc :=
  let! o := copy_props ∅ srcs in new_object o.

(** [console.log(s)] *)
Definition console_log (s : string) : JS unit :=
  fun w => Some (tt, with_console w (console w ++ [s])).

(** Allocation of a class instance with its field unset is not
    observable: the constructor body is one assignment, so the instance
    enters the store with the field already written. *)
Definition new_instance (f : ApexFramework) : JS loc :=
  fun w => Some (length (instances w), with_instances w (instances w ++ [f])).

(** [this.config] *)
Definition get_config (this : loc) : JS loc :=
  fun w => match instances w !! this with
           | Some f => Some (config f, w)
           | None => None
           end.

(** [this.config = a] *)
Definition set_config (this : loc) (a : loc) : JS unit :=
  fun w => match instances w !! this with
           | Some _ => Some (tt, with_instances w (<[this := mkApexFramework a]> (instances w)))
           | None => None
           end.

End JS.

Import JS.

(** ** The interface [ApexConfig] *)

Inductive Environment : Type := development | production | test.

Definition Environment_string (e : Environment) : string :=
  match e with
  | development => "development"
  | production => "production"
  | test => "test"
  end.

Record ApexConfig : Type := mkApexConfig {
  name : string;
  version : string;
  environment : Environment
}.

(** The object a value of the interface is at run time. *)
Definition to_obj (c : ApexConfig) : obj :=
  {[ "name" := VString (name c);
     "version" := VString (version c);
     "environment" := VString (Environment_string (environment c)) ]}.

(** ** The class [ApexFramework] *)

(** [constructor(config) { this.config = config; }] *)
Definition constructor (config : loc) : JS loc :=
  new_instance (mkApexFramework config).

Definition initialize (this : loc) : JS unit :=
  let! c := get_config this in
  let! v := get c "version" in
  do! console_log ("🚀 APEX Enhanced Framework v" ++ ToString v ++ " initialized") in
  let! c := get_config this in
  let! n := get c "name" in
  do! console_log ("📋 Project: " ++ ToString n) in
  let! c := get_config this in
  let! e := get c "environment" in
  console_log ("🌍 Environment: " ++ ToString e).

Definition getConfig (this : loc) : JS loc :=
  let! c := get_config this in
  spread [c].

Definition updateConfig (this : loc) (updates : loc) : JS unit :=
  let! c := get_config this in
  let! r := spread [c; updates] in
  set_config this r.

Definition createApexFramework (config : loc) : JS loc :=
  constructor config.

(** ** What callers can do to an object they hold a reference to *)

Inductive mutation : Type :=
  | Assign (k : string) (v : value)
  | Delete (k : string).

Definition apply_mutation (m : mutation) (o : obj) : obj :=
  match m with
  | Assign k v => <[k := v]> o
  | Delete k => delete k o
  end.

(** What a sequence of assignments and deletions leaves behind. *)
Definition apply_mutations (ms : list mutation) (o : obj) : obj :=
  foldl (fun acc m => apply_mutation m acc) o ms.

Definition mutate1 (a : loc) (m : mutation) : JS unit :=
  match m with
  | Assign k v => set_prop a k v
  | Delete k => delete_prop a k
  end.

Fixpoint mutate (a : loc) (ms : list mutation) : JS unit :=
  match ms with
  | [] => ret tt
  | m :: rest => do! mutate1 a m in mutate a rest
  end.

(** ** Holder states and client programs *)

(** [holds w this a c]: in world [w] the instance [this] exists, its
    field [config] is the reference [a], and [a] is an object whose
    properties are [c]. *)
Definition holds (w : World) (this a : loc) (c : obj) : Prop :=
  instances w !! this = Some (mkApexFramework a) /\ objects w !! a = Some c.

(** A world is well formed when the field of every instance refers to an
    object of the store, as it does in every world a program reaches. *)
Definition wf (w : World) : Prop :=
  forall (this : loc) (f : ApexFramework),
    instances w !! this = Some f -> config f < length (objects w).

(** The three lines [initialize] logs for an object with properties [c]. *)
Definition banner (c : obj) : list string :=
  [ "🚀 APEX Enhanced Framework v" ++ ToString (prop c "version") ++ " initialized";
    "📋 Project: " ++ ToString (prop c "name");
    "🌍 Environment: " ++ ToString (prop c "environment") ].

(** [new ApexFramework({...c}).getConfig()], read back by value. *)
Definition construct_read (c : obj) : JS obj :=
  let! a := new_object c in
  let! f := constructor a in
  let! r := getConfig f in
  get_object r.

(** [f = new ApexFramework({...c}); f.initialize()] *)
Definition construct_initialize (c : obj) : JS unit :=
  let! a := new_object c in
  let! f := constructor a in
  initialize f.

(** [f = new ApexFramework({...c}); f.updateConfig({...p}); f.getConfig()],
    read back by value. *)
Definition construct_update_read (c p : obj) : JS obj :=
  let! a := new_object c in
  let! f := constructor a in
  let! u := new_object p in
  do! updateConfig f u in
  let! r := getConfig f in
  get_object r.

(** [initial = {...c}; f = new ApexFramework(initial); initial.k = v;
    f.getConfig()], read back by value. *)
Definition construct_mutate_read (c : obj) (k : string) (v : value) : JS obj :=
  let! initial := new_object c in
  let! f := constructor initial in
  do! set_prop initial k v in
  let! r := getConfig f in
  get_object r.

(** The configurations of the repository's examples. *)
Definition test_project : ApexConfig := mkApexConfig "Test Project" "1.0.0" test.
Definition factory_test : ApexConfig := mkApexConfig "Factory Test" "1.0.0" development.
Definition updated_project : ApexConfig := mkApexConfig "Updated Project" "2.0.0" development.

(** ** [Partial<ApexConfig>] with defined values

    A partial update in which every field is either left out or given a
    value of its declared type. *)
Record PartialApexConfig : Type := mkPartialApexConfig {
  partial_name : option string;
  partial_version : option string;
  partial_environment : option Environment
}.

Definition set_field (k : string) (v : option string) (o : obj) : obj :=
  match v with
  | Some s => <[k := VString s]> o
  | None => o
  end.

(** The object such a partial is at run time: only the fields given. *)
Definition partial_obj (p : PartialApexConfig) : obj :=
  set_field "name" (partial_name p)
    (set_field "version" (partial_version p)
       (set_field "environment" (Environment_string <$> partial_environment p) ∅)).

(** The record [{ ...c, ...p }] at the types of the interface. *)
Definition merge_config (c : ApexConfig) (p : PartialApexConfig) : ApexConfig :=
  mkApexConfig (default (name c) (partial_name p))
               (default (version c) (partial_version p))
               (default (environment c) (partial_environment p)).

Definition is_delete (m : mutation) : bool :=
  match m with
  | Delete _ => true
  | Assign _ _ => false
  end.

(** [n] calls in a row. *)
Fixpoint times (n : nat) (m : JS unit) : JS unit :=
  match n with
  | O => ret tt
  | S n' => do! m in times n' m
  end.

(** * Properties *)

(** ** Sequencing and frame lemmas *)

Lemma bind_Some {A B} (m : JS A) (k : A -> JS B) (w w' : World) (x : A) :
  m w = Some (x, w') -> bind m k w = k x w'.
Proof. intros H. unfold bind. by rewrite H. Qed.

Lemma with_objects_id (w : World) : with_objects w (objects w) = w.
Proof. by destruct w. Qed.

Lemma holds_alloc (w : World) (this a : loc) (c o : obj) :
  holds w this a c -> holds (with_objects w (objects w ++ [o])) this a c.
Proof.
  intros [Hi Ho]. split; simpl; [done |]. by apply lookup_app_l_Some.
Qed.

Lemma holds_insert_ne (w : World) (this a r : loc) (c o : obj) :
  holds w this a c -> r <> a ->
  holds (with_objects w (<[r := o]> (objects w))) this a c.
Proof.
  intros [Hi Ho] Hne. split; simpl; [done |]. by rewrite list_lookup_insert_ne.
Qed.

Lemma holds_console (w : World) (this a : loc) (c : obj) (ls : list string) :
  holds w this a c -> holds (with_console w ls) this a c.
Proof. by intros [Hi Ho]. Qed.

Lemma holds_allocated (w : World) (this a : loc) (c : obj) :
  holds w this a c -> a < length (objects w).
Proof. intros [_ Ho]. by eapply lookup_lt_Some. Qed.

Lemma get_object_run (w : World) (a : loc) (o : obj) :
  objects w !! a = Some o -> get_object a w = Some (o, w).
Proof. intros H. unfold get_object. by rewrite H. Qed.

Lemma get_run (w : World) (a : loc) (o : obj) (k : string) :
  objects w !! a = Some o -> get a k w = Some (prop o k, w).
Proof. intros H. unfold get. by rewrite (bind_Some _ _ _ _ _ (get_object_run _ _ _ H)). Qed.

Lemma set_prop_run (w : World) (a : loc) (o : obj) (k : string) (v : value) :
  objects w !! a = Some o ->
  set_prop a k v w
  = Some (tt, with_objects w (<[a := <[k := v]> o]> (objects w))).
Proof. intros H. unfold set_prop. by rewrite H. Qed.

Lemma delete_prop_run (w : World) (a : loc) (o : obj) (k : string) :
  objects w !! a = Some o ->
  delete_prop a k w
  = Some (tt, with_objects w (<[a := delete k o]> (objects w))).
Proof. intros H. unfold delete_prop. by rewrite H. Qed.

Lemma mutate_run (ms : list mutation) :
  forall (w : World) (r : loc) (o : obj),
    objects w !! r = Some o ->
    mutate r ms w
    = Some (tt, with_objects w (<[r := apply_mutations ms o]> (objects w))).
Proof.
  induction ms as [| m ms IH]; intros w r o Hr; simpl.
  - unfold ret. by rewrite list_insert_id, with_objects_id.
  - assert (Hstep : mutate1 r m w
      = Some (tt, with_objects w (<[r := apply_mutation m o]> (objects w)))).
    { destruct m; simpl; [by apply set_prop_run | by apply delete_prop_run]. }
    rewrite (bind_Some _ _ _ _ _ Hstep).
    rewrite (IH _ r (apply_mutation m o)).
    + simpl. unfold with_objects. simpl. by rewrite list_insert_insert_eq.
    + simpl. apply list_lookup_insert_eq. by eapply lookup_lt_Some.
Qed.

Lemma createApexFramework_run (w : World) (a : loc) :
  createApexFramework a w = constructor a w.
Proof. reflexivity. Qed.

(** A freshly constructed instance holds the very reference it was given. *)
Lemma constructor_run (w : World) (a : loc) :
  constructor a w
  = Some (length (instances w),
          with_instances w (instances w ++ [mkApexFramework a])).
Proof. reflexivity. Qed.

Lemma holds_constructor (w : World) (a : loc) (c : obj) :
  objects w !! a = Some c ->
  holds (with_instances w (instances w ++ [mkApexFramework a]))
        (length (instances w)) a c.
Proof.
  intros Ho. split; simpl; [| done]. by apply list_lookup_middle.
Qed.

(** ** The effect of each method, as an equation *)


Section Effects.

Variables (w : World) (this a : loc) (c : obj).
Hypothesis Hholds : holds w this a c.

Lemma getConfig_run :
  getConfig this w
  = Some (length (objects w), with_objects w (objects w ++ [c])).
Proof.
  destruct Hholds as [Hi Ho].
  unfold getConfig, spread, bind, get_config, copy_props, bind, get_object, ret, new_object.
  rewrite Hi. simpl. rewrite Ho. by rewrite (right_id_L ∅ (∪)).
Qed.

Lemma updateConfig_run (u : loc) (p : obj) :
  objects w !! u = Some p ->
  updateConfig this u w
  = Some (tt, mkWorld (objects w ++ [p ∪ c])
                      (<[this := mkApexFramework (length (objects w))]> (instances w))
                      (console w)).
Proof.
  intros Hu. destruct Hholds as [Hi Ho].
  unfold updateConfig, spread, bind, get_config, copy_props, bind, get_object, ret,
    new_object, set_config.
  rewrite Hi. simpl. rewrite Ho, Hu. simpl. rewrite Hi.
  by rewrite (right_id_L ∅ (∪)).
Qed.

Lemma initialize_run :
  initialize this w = Some (tt, with_console w (console w ++ banner c)).
Proof.
  destruct Hholds as [Hi Ho].
  unfold initialize, bind, get_config, get, bind, get_object, ret, console_log, prop.
  rewrite Hi. simpl. rewrite Ho. simpl. rewrite Hi. simpl. rewrite Ho. simpl.
  rewrite Hi. simpl. rewrite Ho. simpl.
  unfold with_console, banner. simpl. by rewrite <- !app_assoc.
Qed.

End Effects.


Lemma holds_updateConfig (w : World) (this a : loc) (c o : obj) :
  holds w this a c ->
  holds (mkWorld (objects w ++ [o])
                 (<[this := mkApexFramework (length (objects w))]> (instances w))
                 (console w))
        this (length (objects w)) o.
Proof.
  intros [Hi _]. split; simpl.
  - apply list_lookup_insert_eq. by eapply lookup_lt_Some.
  - by apply list_lookup_middle.
Qed.

(** ** Reachable holder states

    [holds] is what every instance of a well-formed world satisfies, and
    the operations of the class and of its callers keep worlds well
    formed. *)

Lemma wf_empty_world : wf empty_world.
Proof. intros this f H. simpl in H. by rewrite lookup_nil in H. Qed.

Lemma wf_holds (w : World) (this : loc) (f : ApexFramework) :
  wf w -> instances w !! this = Some f ->
  exists c : obj, holds w this (config f) c.
Proof.
  intros Hwf Hi. destruct (lookup_lt_is_Some_2 _ _ (Hwf _ _ Hi)) as [c Hc].
  exists c. split; [by destruct f | done].
Qed.

Lemma wf_objects (w : World) (os : list obj) :
  wf w -> length (objects w) <= length os -> wf (with_objects w os).
Proof. intros Hwf Hle this f Hi. simpl. specialize (Hwf _ _ Hi). lia. Qed.

Lemma wf_new_object (w w' : World) (o : obj) (r : loc) :
  wf w -> new_object o w = Some (r, w') -> wf w'.
Proof.
  intros Hwf [= <- <-]. apply wf_objects; [done |]. rewrite length_app. lia.
Qed.

Lemma wf_mutate (w w' : World) (r : loc) (ms : list mutation) :
  wf w -> mutate r ms w = Some (tt, w') -> wf w'.
Proof.
  intros Hwf Hrun. destruct (objects w !! r) as [o |] eqn:Hr.
  - rewrite (mutate_run ms w r o Hr) in Hrun. injection Hrun as <-.
    apply wf_objects; [done |]. by rewrite length_insert.
  - destruct ms as [| m ms]; simpl in Hrun.
    + by injection Hrun as <-.
    + unfold bind in Hrun. destruct m; simpl in Hrun;
        unfold set_prop, delete_prop in Hrun; by rewrite Hr in Hrun.
Qed.

Lemma wf_constructor (w w' : World) (a this : loc) :
  wf w -> a < length (objects w) -> constructor a w = Some (this, w') -> wf w'.
Proof.
  intros Hwf Ha [= <- <-] this' f Hi. simpl in *.
  apply lookup_app_Some in Hi as [Hi | [_ Hi]]; [by eapply Hwf |].
  apply list_lookup_singleton_Some in Hi as [_ <-]. done.
Qed.

Lemma wf_getConfig (w w' : World) (this r : loc) :
  wf w -> getConfig this w = Some (r, w') -> wf w'.
Proof.
  intros Hwf Hrun. destruct (instances w !! this) as [f |] eqn:Hi.
  - destruct (wf_holds _ _ _ Hwf Hi) as [c Hh].
    rewrite (getConfig_run _ _ _ _ Hh) in Hrun. injection Hrun as <- <-.
    apply wf_objects; [done |]. rewrite length_app. lia.
  - unfold getConfig, bind, get_config in Hrun. by rewrite Hi in Hrun.
Qed.

Lemma wf_initialize (w w' : World) (this : loc) :
  wf w -> initialize this w = Some (tt, w') -> wf w'.
Proof.
  intros Hwf Hrun. destruct (instances w !! this) as [f |] eqn:Hi.
  - destruct (wf_holds _ _ _ Hwf Hi) as [c Hh].
    rewrite (initialize_run _ _ _ _ Hh) in Hrun. by injection Hrun as <-.
  - unfold initialize, bind, get_config in Hrun. by rewrite Hi in Hrun.
Qed.

Lemma wf_updateConfig (w w' : World) (this u : loc) :
  wf w -> updateConfig this u w = Some (tt, w') -> wf w'.
Proof.
  intros Hwf Hrun. destruct (instances w !! this) as [f |] eqn:Hi.
  - destruct (wf_holds _ _ _ Hwf Hi) as [c Hh].
    destruct (objects w !! u) as [p |] eqn:Hu.
    + rewrite (updateConfig_run _ _ _ _ Hh _ _ Hu) in Hrun. injection Hrun as <-.
      intros this' f' Hi'. simpl in *. rewrite length_app. simpl.
      destruct (decide (this = this')) as [<- | Hne].
      * rewrite list_lookup_insert_eq in Hi' by by eapply lookup_lt_Some.
        injection Hi' as <-. simpl. lia.
      * rewrite list_lookup_insert_ne in Hi' by done.
        specialize (Hwf _ _ Hi'). lia.
    + destruct Hh as [_ Ho].
      unfold updateConfig, spread, bind, get_config, copy_props, bind, get_object in Hrun.
      rewrite Hi in Hrun. simpl in Hrun. rewrite Ho, Hu in Hrun. done.
  - unfold updateConfig, bind, get_config in Hrun. by rewrite Hi in Hrun.
Qed.

Lemma construct_read_run (w : World) (c : obj) :
  exists w', construct_read c w = Some (c, w').
Proof.
  unfold construct_read.
  set (w1 := with_objects w (objects w ++ [c])).
  assert (Ha : objects w1 !! length (objects w) = Some c)
    by by apply list_lookup_middle.
  pose proof (holds_constructor w1 _ c Ha) as Hh.
  rewrite (bind_Some (new_object c) _ w w1 (length (objects w)) eq_refl).
  rewrite (bind_Some _ _ _ _ _ (constructor_run w1 _)).
  rewrite (bind_Some _ _ _ _ _ (getConfig_run _ _ _ _ Hh)).
  eexists. apply get_object_run. simpl. by apply list_lookup_middle.
Qed.

(** ** Reading *)

(** C2. For every configuration value [cfg] of the interface, and in any
    world, constructing a holder with it and calling [getConfig] at once
    returns an object equal to it by value: the object has exactly the
    properties of [cfg], and its three fields read [name cfg],
    [version cfg] and the string of [environment cfg]. *)
Theorem construct_getConfig_equal (w : World) (cfg : ApexConfig) :
  exists (o : obj) (w' : World),
    construct_read (to_obj cfg) w = Some (o, w')
    /\ o = to_obj cfg
    /\ prop o "name" = VString (name cfg)
    /\ prop o "version" = VString (version cfg)
    /\ prop o "environment" = VString (Environment_string (environment cfg)).
Proof.
  destruct (construct_read_run w (to_obj cfg)) as [w' Hrun].
  exists (to_obj cfg), w'. by repeat split.
Qed.

(** C9. For every holder state, two calls of [getConfig] in a row both
    succeed and return objects with the same properties, those of the
    held configuration; the calls leave the holder, its configuration
    object and the console as they were. *)
Theorem getConfig_twice_equal (w : World) (this a : loc) (c : obj) :
  holds w this a c ->
  exists (r1 r2 : loc) (w1 w2 : World) (o1 o2 : obj),
    getConfig this w = Some (r1, w1)
    /\ getConfig this w1 = Some (r2, w2)
    /\ objects w2 !! r1 = Some o1
    /\ objects w2 !! r2 = Some o2
    /\ o1 = o2
    /\ o1 = c
    /\ holds w2 this a c
    /\ console w2 = console w.
Proof.
  intros Hh.
  pose proof (holds_alloc _ _ _ _ c Hh) as Hh1.
  pose proof (holds_alloc _ _ _ _ c Hh1) as Hh2.
  eexists _, _, _, _, c, c.
  split; [by apply getConfig_run with (a := a) |].
  split; [by apply getConfig_run with (a := a) |].
  repeat split; try done; try apply Hh2; simpl.
  - apply lookup_app_l_Some. by apply list_lookup_middle.
  - by apply list_lookup_middle.
Qed.

Lemma getConfig_twice_equal_witness :
  exists (r1 r2 : loc) (w1 w2 : World) (o1 o2 : obj),
    getConfig 0 (mkWorld [to_obj test_project] [mkApexFramework 0] []) = Some (r1, w1)
    /\ getConfig 0 w1 = Some (r2, w2)
    /\ objects w2 !! r1 = Some o1
    /\ objects w2 !! r2 = Some o2
    /\ o1 = o2
    /\ o1 = to_obj test_project
    /\ holds w2 0 0 (to_obj test_project)
    /\ console w2 = [].
Proof.
  apply (getConfig_twice_equal
           (mkWorld [to_obj test_project] [mkApexFramework 0] []) 0 0
           (to_obj test_project)).
  split; reflexivity.
Defined.

(** C4. For every holder state, [getConfig] returns a reference to a
    fresh object: it is neither the holder's configuration object nor
    the object of another call, and whatever sequence of assignments
    and deletions the caller applies to it, the holder still holds the
    same configuration and the next [getConfig] returns it unchanged. *)
Theorem getConfig_defensive_copy
    (w : World) (this a : loc) (c : obj) (ms : list mutation) :
  holds w this a c ->
  exists (r1 r2 : loc) (w' : World),
    (let! r1 := getConfig this in
     do! mutate r1 ms in
     let! r2 := getConfig this in
     let! o2 := get_object r2 in
     ret (r1, r2, o2)) w = Some ((r1, r2, c), w')
    /\ r1 <> r2 /\ r1 <> a /\ r2 <> a
    /\ objects w' !! r1 = Some (apply_mutations ms c)
    /\ holds w' this a c.
Proof.
  intros Hh.
  pose proof (holds_allocated _ _ _ _ Hh) as Hlt.
  set (w1 := with_objects w (objects w ++ [c])).
  assert (Hr1 : objects w1 !! length (objects w) = Some c)
    by by apply list_lookup_middle.
  set (w2 := with_objects w1 (<[length (objects w) := apply_mutations ms c]> (objects w1))).
  assert (Hh2 : holds w2 this a c).
  { apply holds_insert_ne; [by apply holds_alloc | lia]. }
  assert (Hlen2 : length (objects w2) = S (length (objects w))).
  { unfold w2, w1. simpl. rewrite length_insert, length_app. simpl. lia. }
  exists (length (objects w)), (length (objects w2)), (with_objects w2 (objects w2 ++ [c])).
  split.
  { rewrite (bind_Some _ _ _ _ _ (getConfig_run _ _ _ _ Hh)).
    rewrite (bind_Some _ _ _ _ _ (mutate_run ms w1 _ c Hr1)).
    fold w2.
    rewrite (bind_Some _ _ _ _ _ (getConfig_run _ _ _ _ Hh2)).
    erewrite bind_Some; [reflexivity |].
    apply get_object_run. simpl. by apply list_lookup_middle. }
  repeat split; try lia.
  - simpl. apply lookup_app_l_Some. apply list_lookup_insert_eq.
    unfold w1. simpl. rewrite length_app. simpl. lia.
  - apply Hh2.
  - simpl. apply lookup_app_l_Some. apply Hh2.
Qed.

Lemma getConfig_defensive_copy_witness :
  exists (r1 r2 : loc) (w' : World),
    (let! r1 := getConfig 0 in
     do! mutate r1 [Assign "name" (VString "Hacked"); Delete "version"] in
     let! r2 := getConfig 0 in
     let! o2 := get_object r2 in
     ret (r1, r2, o2)) (mkWorld [to_obj test_project] [mkApexFramework 0] [])
    = Some ((r1, r2, to_obj test_project), w')
    /\ r1 <> r2 /\ r1 <> 0 /\ r2 <> 0
    /\ objects w' !! r1
       = Some (apply_mutations [Assign "name" (VString "Hacked"); Delete "version"]
                               (to_obj test_project))
    /\ holds w' 0 0 (to_obj test_project).
Proof.
  apply (getConfig_defensive_copy
           (mkWorld [to_obj test_project] [mkApexFramework 0] []) 0 0
           (to_obj test_project)
           [Assign "name" (VString "Hacked"); Delete "version"]).
  split; reflexivity.
Defined.

(** ** Updating *)

Lemma construct_update_read_run (w : World) (c p : obj) :
  exists w', construct_update_read c p w = Some (p ∪ c, w').
Proof.
  unfold construct_update_read.
  set (w1 := with_objects w (objects w ++ [c])).
  set (w2 := with_instances w1 (instances w1 ++ [mkApexFramework (length (objects w))])).
  set (w3 := with_objects w2 (objects w2 ++ [p])).
  assert (Ha : objects w1 !! length (objects w) = Some c)
    by by apply list_lookup_middle.
  assert (Hh : holds w3 (length (instances w1)) (length (objects w)) c).
  { apply holds_alloc. by apply holds_constructor. }
  assert (Hu : objects w3 !! length (objects w2) = Some p)
    by by apply list_lookup_middle.
  rewrite (bind_Some (new_object c) _ w w1 (length (objects w)) eq_refl).
  rewrite (bind_Some _ _ _ _ _ (constructor_run w1 _)).
  rewrite (bind_Some (new_object p) _ w2 w3 (length (objects w2)) eq_refl).
  rewrite (bind_Some _ _ _ _ _ (updateConfig_run _ _ _ _ Hh _ _ Hu)).
  rewrite (bind_Some _ _ _ _ _
             (getConfig_run _ _ _ _ (holds_updateConfig _ _ _ _ (p ∪ c) Hh))).
  eexists. apply get_object_run. simpl. by apply list_lookup_middle.
Qed.

(** C1. For every holder state and every partial update [p]: after
    [updateConfig(p)] the holder holds the merge of its previous
    configuration [c] and [p], and [getConfig] returns it: a property
    that [p] has reads as in [p], every other property reads as in [c].
    In particular a holder constructed with the Factory Test
    configuration and updated with a new name and version returns the
    Updated Project configuration, environment still development. *)
Theorem updateConfig_merges :
  (forall (w : World) (this a u : loc) (c p : obj),
      holds w this a c ->
      objects w !! u = Some p ->
      exists (w' w'' : World) (a' r : loc) (o : obj),
        updateConfig this u w = Some (tt, w')
        /\ holds w' this a' o
        /\ getConfig this w' = Some (r, w'')
        /\ objects w'' !! r = Some o
        /\ (forall k, is_Some (p !! k) -> o !! k = p !! k)
        /\ (forall k, p !! k = None -> o !! k = c !! k))
  /\ (forall w : World,
        exists w' : World,
          construct_update_read
            (to_obj factory_test)
            {[ "name" := VString "Updated Project"; "version" := VString "2.0.0" ]}
            w
          = Some (to_obj updated_project, w')).
Proof.
  split.
  - intros w this a u c p Hh Hu.
    pose proof (holds_updateConfig _ _ _ _ (p ∪ c) Hh) as Hh'.
    eexists _, _, _, _, (p ∪ c).
    split; [by apply updateConfig_run with (a := a) |].
    split; [exact Hh' |].
    split; [by apply getConfig_run with (a := length (objects w)) |].
    split; [simpl; by apply list_lookup_middle |].
    split.
    + intros k [v Hv]. rewrite Hv. by apply lookup_union_Some_l.
    + intros k Hk. by apply lookup_union_r.
  - intros w. apply construct_update_read_run.
Qed.

Lemma updateConfig_merges_witness :
  exists (w' w'' : World) (a' r : loc) (o : obj),
    updateConfig 0 1
      (mkWorld [to_obj factory_test; {[ "version" := VString "2.0.0" ]}]
               [mkApexFramework 0] [])
    = Some (tt, w')
    /\ holds w' 0 a' o
    /\ getConfig 0 w' = Some (r, w'')
    /\ objects w'' !! r = Some o
    /\ (forall k, is_Some (({[ "version" := VString "2.0.0" ]} : obj) !! k) ->
                  o !! k = ({[ "version" := VString "2.0.0" ]} : obj) !! k)
    /\ (forall k, ({[ "version" := VString "2.0.0" ]} : obj) !! k = None ->
                  o !! k = to_obj factory_test !! k).
Proof.
  apply (proj1 updateConfig_merges
           (mkWorld [to_obj factory_test; {[ "version" := VString "2.0.0" ]}]
                    [mkApexFramework 0] [])
           0 0 1 (to_obj factory_test) {[ "version" := VString "2.0.0" ]}).
  - split; reflexivity.
  - reflexivity.
Defined.

(** C6. For every holder state, [updateConfig] with an object that has
    no property leaves the configuration unchanged by value: the
    [getConfig] after the call returns the same properties as the
    [getConfig] before it. *)
Theorem updateConfig_empty_unchanged (w : World) (this a u : loc) (c : obj) :
  holds w this a c ->
  objects w !! u = Some ∅ ->
  exists (r1 r2 a' : loc) (w1 w2 w3 : World) (o1 o2 : obj),
    getConfig this w = Some (r1, w1)
    /\ updateConfig this u w1 = Some (tt, w2)
    /\ getConfig this w2 = Some (r2, w3)
    /\ objects w1 !! r1 = Some o1
    /\ objects w3 !! r2 = Some o2
    /\ o2 = o1
    /\ holds w2 this a' c.
Proof.
  intros Hh Hu.
  pose proof (holds_alloc _ _ _ _ c Hh) as Hh1.
  assert (Hu1 : objects (with_objects w (objects w ++ [c])) !! u = Some ∅)
    by by apply lookup_app_l_Some.
  pose proof (holds_updateConfig _ _ _ _ c Hh1) as Hh2.
  eexists _, _, _, _, _, _, c, c.
  split; [by apply getConfig_run with (a := a) |].
  split.
  { rewrite (updateConfig_run _ _ _ _ Hh1 _ _ Hu1).
    by rewrite (left_id_L ∅ (∪)). }
  split; [apply (getConfig_run _ _ _ _ Hh2) |].
  repeat split; try apply Hh2; simpl.
  - by apply list_lookup_middle.
  - by apply list_lookup_middle.
Qed.

Lemma updateConfig_empty_unchanged_witness :
  exists (r1 r2 a' : loc) (w1 w2 w3 : World) (o1 o2 : obj),
    getConfig 0 (mkWorld [to_obj factory_test; ∅] [mkApexFramework 0] []) = Some (r1, w1)
    /\ updateConfig 0 1 w1 = Some (tt, w2)
    /\ getConfig 0 w2 = Some (r2, w3)
    /\ objects w1 !! r1 = Some o1
    /\ objects w3 !! r2 = Some o2
    /\ o2 = o1
    /\ holds w2 0 a' (to_obj factory_test).
Proof.
  apply (updateConfig_empty_unchanged
           (mkWorld [to_obj factory_test; ∅] [mkApexFramework 0] []) 0 0 1
           (to_obj factory_test)).
  - split; reflexivity.
  - reflexivity.
Defined.

(** C8. For every holder state and every partial update, [updateConfig]
    succeeds, returns nothing and writes nothing to the console; every
    object that existed before keeps its properties, every other
    instance keeps its field, and the only change is the holder's
    [config], which refers to a fresh object. *)
Theorem updateConfig_silent (w : World) (this a u : loc) (c p : obj) :
  holds w this a c ->
  objects w !! u = Some p ->
  exists w' : World,
    updateConfig this u w = Some (tt, w')
    /\ console w' = console w
    /\ (forall (l : loc) (o : obj), objects w !! l = Some o -> objects w' !! l = Some o)
    /\ (forall f : loc, f <> this -> instances w' !! f = instances w !! f)
    /\ instances w' !! this = Some (mkApexFramework (length (objects w))).
Proof.
  intros Hh Hu. eexists.
  split; [by apply updateConfig_run with (a := a) |].
  simpl. repeat split.
  - intros l o Hl. by apply lookup_app_l_Some.
  - intros f Hf. by apply list_lookup_insert_ne.
  - apply list_lookup_insert_eq. destruct Hh as [Hi _]. by eapply lookup_lt_Some.
Qed.

Lemma updateConfig_silent_witness :
  exists w' : World,
    updateConfig 0 1
      (mkWorld [to_obj factory_test; {[ "version" := VString "2.0.0" ]}]
               [mkApexFramework 0] ["earlier line"])
    = Some (tt, w')
    /\ console w' = ["earlier line"]
    /\ (forall (l : loc) (o : obj),
          [to_obj factory_test; ({[ "version" := VString "2.0.0" ]} : obj)] !! l = Some o ->
          objects w' !! l = Some o)
    /\ (forall f : loc, f <> 0 -> instances w' !! f = [mkApexFramework 0] !! f)
    /\ instances w' !! 0 = Some (mkApexFramework 2).
Proof.
  apply (updateConfig_silent
           (mkWorld [to_obj factory_test; {[ "version" := VString "2.0.0" ]}]
                    [mkApexFramework 0] ["earlier line"])
           0 0 1 (to_obj factory_test) {[ "version" := VString "2.0.0" ]}).
  - split; reflexivity.
  - reflexivity.
Defined.

Lemma to_obj_name (cfg : ApexConfig) :
  to_obj cfg !! "name" = Some (VString (name cfg)).
Proof. reflexivity. Qed.

(** C10. A property that the partial has with the value [undefined]
    overwrites the stored one: after [updateConfig(p)] with
    [p.k = undefined] present, [getConfig] returns an object whose
    property [k] is present and [undefined], whatever the holder held.
    In particular after [updateConfig({name: undefined})] the returned
    object is the old one with [name] set to [undefined], and no value
    of the interface [ApexConfig], whose [name] is a string, has these
    properties. *)
Theorem updateConfig_undefined_overwrites :
  (forall (w : World) (this a u : loc) (c p : obj) (k : string),
      holds w this a c ->
      objects w !! u = Some p ->
      p !! k = Some VUndefined ->
      exists (w' w'' : World) (r : loc) (o : obj),
        updateConfig this u w = Some (tt, w')
        /\ getConfig this w' = Some (r, w'')
        /\ objects w'' !! r = Some o
        /\ o !! k = Some VUndefined
        /\ get r k w'' = Some (VUndefined, w''))
  /\ (forall (w : World) (this a u : loc) (c : obj),
        holds w this a c ->
        objects w !! u = Some {[ "name" := VUndefined ]} ->
        exists (w' w'' : World) (r : loc),
          updateConfig this u w = Some (tt, w')
          /\ getConfig this w' = Some (r, w'')
          /\ objects w'' !! r = Some (<[ "name" := VUndefined ]> c)
          /\ forall cfg : ApexConfig, to_obj cfg <> <[ "name" := VUndefined ]> c).
Proof.
  split.
  - intros w this a u c p k Hh Hu Hk.
    pose proof (holds_updateConfig _ _ _ _ (p ∪ c) Hh) as Hh'.
    assert (Hr : objects (with_objects
                   (mkWorld (objects w ++ [p ∪ c])
                      (<[this := mkApexFramework (length (objects w))]> (instances w))
                      (console w))
                   ((objects w ++ [p ∪ c]) ++ [p ∪ c]))
                 !! length (objects w ++ [p ∪ c]) = Some (p ∪ c)).
    { simpl. by apply list_lookup_middle. }
    assert (Hk' : (p ∪ c) !! k = Some VUndefined) by by apply lookup_union_Some_l.
    eexists _, _, _, (p ∪ c).
    split; [by apply updateConfig_run with (a := a) |].
    split; [apply (getConfig_run _ _ _ _ Hh') |].
    split; [exact Hr |].
    split; [exact Hk' |].
    pose proof (get_run _ _ _ k Hr) as Hg.
    unfold prop in Hg. rewrite Hk' in Hg. exact Hg.
  - intros w this a u c Hh Hu.
    pose proof (holds_updateConfig _ _ _ _ ({[ "name" := VUndefined ]} ∪ c) Hh) as Hh'.
    eexists _, _, _.
    split; [by apply updateConfig_run with (a := a) |].
    split; [apply (getConfig_run _ _ _ _ Hh') |].
    split.
    + simpl. rewrite insert_union_singleton_l. by apply list_lookup_middle.
    + intros cfg Heq.
      assert (H : to_obj cfg !! "name" = Some VUndefined)
        by (rewrite Heq; apply lookup_insert_eq).
      rewrite to_obj_name in H. discriminate.
Qed.

Lemma updateConfig_undefined_overwrites_witness :
  exists (w' w'' : World) (r : loc) (o : obj),
    updateConfig 0 1
      (mkWorld [to_obj factory_test; {[ "name" := VUndefined ]}] [mkApexFramework 0] [])
    = Some (tt, w')
    /\ getConfig 0 w' = Some (r, w'')
    /\ objects w'' !! r = Some o
    /\ o !! "name" = Some VUndefined
    /\ get r "name" w'' = Some (VUndefined, w'').
Proof.
  apply (proj1 updateConfig_undefined_overwrites
           (mkWorld [to_obj factory_test; {[ "name" := VUndefined ]}] [mkApexFramework 0] [])
           0 0 1 (to_obj factory_test) {[ "name" := VUndefined ]} "name").
  - split; reflexivity.
  - reflexivity.
  - reflexivity.
Defined.

(** ** Announcing *)

Lemma construct_initialize_run (w : World) (c : obj) :
  exists w',
    construct_initialize c w = Some (tt, w')
    /\ console w' = (console w ++ banner c)%list.
Proof.
  unfold construct_initialize.
  set (w1 := with_objects w (objects w ++ [c])).
  assert (Ha : objects w1 !! length (objects w) = Some c)
    by by apply list_lookup_middle.
  pose proof (holds_constructor w1 _ c Ha) as Hh.
  rewrite (bind_Some (new_object c) _ w w1 (length (objects w)) eq_refl).
  rewrite (bind_Some _ _ _ _ _ (constructor_run w1 _)).
  rewrite (initialize_run _ _ _ _ Hh).
  by eexists.
Qed.

(** C3. For every holder state, [initialize] succeeds and appends
    exactly three lines to the console, in this order: the banner with
    the current version, the line "Project: " with the current name,
    the line "Environment: " with the current environment (each after
    its pictograph). The lines are those of the configuration held at
    the time of the call, so after an update they show the merged
    values. In particular a holder constructed with the Test Project
    configuration logs "... Framework v1.0.0 initialized",
    "Project: Test Project" and "Environment: test". *)
Theorem initialize_logs_three_lines :
  (forall c : obj,
      banner c
      = [ "🚀 APEX Enhanced Framework v" ++ ToString (prop c "version") ++ " initialized";
          "📋 Project: " ++ ToString (prop c "name");
          "🌍 Environment: " ++ ToString (prop c "environment") ])
  /\ (forall (w : World) (this a : loc) (c : obj),
        holds w this a c ->
        exists w' : World,
          initialize this w = Some (tt, w')
          /\ console w' = (console w ++ banner c)%list)
  /\ (forall (w : World) (this a u : loc) (c p : obj),
        holds w this a c ->
        objects w !! u = Some p ->
        exists w' : World,
          (do! updateConfig this u in initialize this) w = Some (tt, w')
          /\ console w' = (console w ++ banner (p ∪ c))%list)
  /\ (forall w : World,
        exists w' : World,
          construct_initialize (to_obj test_project) w = Some (tt, w')
          /\ console w'
             = (console w ++ [ "🚀 APEX Enhanced" ++ " Framework v1.0.0 initialized";
                               "📋 " ++ "Project: Test Project";
                               "🌍 " ++ "Environment: test" ]%string)%list).
Proof.
  split; [reflexivity |].
  split; [| split].
  - intros w this a c Hh. rewrite (initialize_run _ _ _ _ Hh). by eexists.
  - intros w this a u c p Hh Hu.
    rewrite (bind_Some _ _ _ _ _ (updateConfig_run _ _ _ _ Hh _ _ Hu)).
    rewrite (initialize_run _ _ _ _ (holds_updateConfig _ _ _ _ (p ∪ c) Hh)).
    by eexists.
  - intros w. apply (construct_initialize_run w (to_obj test_project)).
Qed.

Lemma initialize_logs_three_lines_witness :
  exists w' : World,
    initialize 0 (mkWorld [to_obj updated_project] [mkApexFramework 0] ["earlier line"])
    = Some (tt, w')
    /\ console w' = (["earlier line"] ++ banner (to_obj updated_project))%list.
Proof.
  apply (proj1 (proj2 initialize_logs_three_lines)
           (mkWorld [to_obj updated_project] [mkApexFramework 0] ["earlier line"])
           0 0 (to_obj updated_project)).
  split; reflexivity.
Defined.

(** C7. For every holder state, [initialize] returns nothing and leaves
    the objects and the instances of the world as they were: the
    [getConfig] after the call returns the same properties as the
    [getConfig] before it. *)
Theorem initialize_preserves_config (w : World) (this a : loc) (c : obj) :
  holds w this a c ->
  exists (r1 r2 : loc) (w1 w2 w3 : World) (o1 o2 : obj),
    getConfig this w = Some (r1, w1)
    /\ initialize this w1 = Some (tt, w2)
    /\ getConfig this w2 = Some (r2, w3)
    /\ objects w2 = objects w1
    /\ instances w2 = instances w1
    /\ objects w1 !! r1 = Some o1
    /\ objects w3 !! r2 = Some o2
    /\ o2 = o1.
Proof.
  intros Hh.
  pose proof (holds_alloc _ _ _ _ c Hh) as Hh1.
  pose proof (holds_console _ _ _ _
                (console (with_objects w (objects w ++ [c])) ++ banner c) Hh1) as Hh2.
  eexists _, _, _, _, _, c, c.
  split; [by apply getConfig_run with (a := a) |].
  split; [apply (initialize_run _ _ _ _ Hh1) |].
  split; [apply (getConfig_run _ _ _ _ Hh2) |].
  repeat split; simpl; by apply list_lookup_middle.
Qed.

Lemma initialize_preserves_config_witness :
  exists (r1 r2 : loc) (w1 w2 w3 : World) (o1 o2 : obj),
    getConfig 0 (mkWorld [to_obj test_project] [mkApexFramework 0] []) = Some (r1, w1)
    /\ initialize 0 w1 = Some (tt, w2)
    /\ getConfig 0 w2 = Some (r2, w3)
    /\ objects w2 = objects w1
    /\ instances w2 = instances w1
    /\ objects w1 !! r1 = Some o1
    /\ objects w3 !! r2 = Some o2
    /\ o2 = o1.
Proof.
  apply (initialize_preserves_config
           (mkWorld [to_obj test_project] [mkApexFramework 0] []) 0 0
           (to_obj test_project)).
  split; reflexivity.
Defined.

(** ** Construction *)

Lemma construct_mutate_read_run (w : World) (c : obj) (k : string) (v : value) :
  exists w', construct_mutate_read c k v w = Some (<[k := v]> c, w').
Proof.
  unfold construct_mutate_read.
  set (a := length (objects w)).
  set (w1 := with_objects w (objects w ++ [c])).
  set (w2 := with_instances w1 (instances w1 ++ [mkApexFramework a])).
  set (w3 := with_objects w2 (<[a := <[k := v]> c]> (objects w2))).
  assert (Ha : objects w2 !! a = Some c) by by apply list_lookup_middle.
  pose proof (set_prop_run w2 a c k v Ha) as Hset. fold w3 in Hset.
  assert (Hh : holds w3 (length (instances w1)) a (<[k := v]> c)).
  { split; simpl.
    - by apply list_lookup_middle.
    - apply list_lookup_insert_eq. by eapply lookup_lt_Some. }
  rewrite (bind_Some (new_object c) _ w w1 a eq_refl).
  rewrite (bind_Some _ _ _ _ _ (constructor_run w1 a)).
  rewrite (bind_Some _ _ _ _ _ Hset).
  rewrite (bind_Some _ _ _ _ _ (getConfig_run _ _ _ _ Hh)).
  eexists. apply get_object_run. simpl. by apply list_lookup_middle.
Qed.

(** C5. The constructor stores the reference it is given, not a copy of
    the object behind it: in any world, an assignment [initial.k = v]
    made by the caller after construction shows in what [getConfig]
    returns next. With the Factory Test configuration and
    [initial.name = "Mutated"], [getConfig] returns a configuration
    named "Mutated", which is not the one the holder was built with. *)
Theorem constructor_shares_initial :
  (forall (w : World) (c : obj) (k : string) (v : value),
      exists w' : World,
        construct_mutate_read c k v w = Some (<[k := v]> c, w'))
  /\ (exists (o : obj) (w' : World),
        construct_mutate_read (to_obj factory_test) "name" (VString "Mutated") empty_world
        = Some (o, w')
        /\ prop o "name" = VString "Mutated"
        /\ prop (to_obj factory_test) "name" = VString "Factory Test"
        /\ o <> to_obj factory_test).
Proof.
  split; [apply construct_mutate_read_run |].
  eexists _, _. split; [reflexivity |].
  split; [reflexivity |]. split; [reflexivity |].
  intros Heq.
  assert (H : prop (<["name" := VString "Mutated"]> (to_obj factory_test)) "name"
              = prop (to_obj factory_test) "name") by (f_equal; exact Heq).
  discriminate H.
Qed.

(** ** Further properties of the class *)

Lemma partial_obj_merge (cfg : ApexConfig) (p : PartialApexConfig) :
  partial_obj p ∪ to_obj cfg = to_obj (merge_config cfg p).
Proof. destruct p as [[n |] [v |] [e |]]; reflexivity. Qed.

Lemma deletions_subseteq (ms : list mutation) (c : obj) :
  forallb is_delete ms = true ->
  forall o : obj, o ⊆ c -> apply_mutations ms o ⊆ c.
Proof.
  induction ms as [| m ms IH]; intros Hd o Ho; simpl in *; [done |].
  apply andb_prop in Hd as [Hm Hms]. destruct m as [k v | k]; [done |].
  apply IH; [done |]. simpl. etrans; [apply delete_subseteq | done].
Qed.

(** X1. [createApexFramework] makes a new holder of the reference it is
    given and touches nothing else: the instance is a fresh one, every
    instance that existed is kept, the objects and the console are as
    before, and [getConfig] on the new holder returns the properties of
    the object given. *)
Theorem createApexFramework_fresh_holder (w : World) (a : loc) (c : obj) :
  objects w !! a = Some c ->
  exists (f r : loc) (w' w'' : World),
    createApexFramework a w = Some (f, w')
    /\ holds w' f a c
    /\ instances w !! f = None
    /\ (forall (g : loc) (e : ApexFramework),
          instances w !! g = Some e -> instances w' !! g = Some e)
    /\ objects w' = objects w
    /\ console w' = console w
    /\ getConfig f w' = Some (r, w'')
    /\ objects w'' !! r = Some c.
Proof.
  intros Ha. pose proof (holds_constructor w a c Ha) as Hh.
  eexists _, _, _, _.
  split; [apply constructor_run |].
  split; [exact Hh |].
  split; [by apply lookup_ge_None_2 |].
  split; [intros g e Hg; simpl; by apply lookup_app_l_Some |].
  split; [done |]. split; [done |].
  split; [apply (getConfig_run _ _ _ _ Hh) |].
  simpl. by apply list_lookup_middle.
Qed.

Lemma createApexFramework_fresh_holder_witness :
  exists (f r : loc) (w' w'' : World),
    createApexFramework 0 (mkWorld [to_obj factory_test] [mkApexFramework 0] [])
    = Some (f, w')
    /\ holds w' f 0 (to_obj factory_test)
    /\ [mkApexFramework 0] !! f = None
    /\ (forall (g : loc) (e : ApexFramework),
          [mkApexFramework 0] !! g = Some e -> instances w' !! g = Some e)
    /\ objects w' = [to_obj factory_test]
    /\ console w' = []
    /\ getConfig f w' = Some (r, w'')
    /\ objects w'' !! r = Some (to_obj factory_test).
Proof.
  apply (createApexFramework_fresh_holder
           (mkWorld [to_obj factory_test] [mkApexFramework 0] []) 0
           (to_obj factory_test)).
  reflexivity.
Defined.

(** X2. Two updates in a row amount to one update with the second
    partial laid over the first: after [updateConfig(p1)] and
    [updateConfig(p2)] the holder holds the same properties as after
    the single [updateConfig] of an object with properties [p2 ∪ p1]. *)
Theorem updateConfig_twice_merges
    (w : World) (this a u1 u2 u12 : loc) (c p1 p2 : obj) :
  holds w this a c ->
  objects w !! u1 = Some p1 ->
  objects w !! u2 = Some p2 ->
  objects w !! u12 = Some (p2 ∪ p1) ->
  exists (w2 w12 : World) (a2 a12 : loc) (o : obj),
    (do! updateConfig this u1 in updateConfig this u2) w = Some (tt, w2)
    /\ updateConfig this u12 w = Some (tt, w12)
    /\ holds w2 this a2 o
    /\ holds w12 this a12 o.
Proof.
  intros Hh H1 H2 H12.
  pose proof (holds_updateConfig _ _ _ _ (p1 ∪ c) Hh) as Hh1.
  assert (H2' : objects
                  (mkWorld (objects w ++ [p1 ∪ c])
                     (<[this := mkApexFramework (length (objects w))]> (instances w))
                     (console w)) !! u2 = Some p2)
    by (simpl; by apply lookup_app_l_Some).
  eexists _, _, _, _, ((p2 ∪ p1) ∪ c).
  split.
  { rewrite (bind_Some _ _ _ _ _ (updateConfig_run _ _ _ _ Hh _ _ H1)).
    apply (updateConfig_run _ _ _ _ Hh1 _ _ H2'). }
  split; [apply (updateConfig_run _ _ _ _ Hh _ _ H12) |].
  split.
  - rewrite <- (assoc_L (∪)). apply (holds_updateConfig _ _ _ _ _ Hh1).
  - apply (holds_updateConfig _ _ _ _ _ Hh).
Qed.

Lemma updateConfig_twice_merges_witness :
  exists (w2 w12 : World) (a2 a12 : loc) (o : obj),
    (do! updateConfig 0 1 in updateConfig 0 2)
      (mkWorld [ to_obj factory_test;
                 {[ "name" := VString "First"; "version" := VString "2.0.0" ]};
                 {[ "name" := VString "Second" ]};
                 {[ "name" := VString "Second"; "version" := VString "2.0.0" ]} ]
               [mkApexFramework 0] [])
    = Some (tt, w2)
    /\ updateConfig 0 3
         (mkWorld [ to_obj factory_test;
                    {[ "name" := VString "First"; "version" := VString "2.0.0" ]};
                    {[ "name" := VString "Second" ]};
                    {[ "name" := VString "Second"; "version" := VString "2.0.0" ]} ]
                  [mkApexFramework 0] [])
       = Some (tt, w12)
    /\ holds w2 0 a2 o
    /\ holds w12 0 a12 o.
Proof.
  apply (updateConfig_twice_merges
           (mkWorld [ to_obj factory_test;
                      {[ "name" := VString "First"; "version" := VString "2.0.0" ]};
                      {[ "name" := VString "Second" ]};
                      {[ "name" := VString "Second"; "version" := VString "2.0.0" ]} ]
                    [mkApexFramework 0] [])
           0 0 1 2 3 (to_obj factory_test)
           {[ "name" := VString "First"; "version" := VString "2.0.0" ]}
           {[ "name" := VString "Second" ]}).
  - split; reflexivity.
  - reflexivity.
  - reflexivity.
  - reflexivity.
Defined.

(** X3. An update that only repeats values the configuration already
    has changes nothing by value: when every property of the partial is
    a property of the held configuration with the same value, the
    holder holds the same properties after [updateConfig] as before. *)
Theorem updateConfig_same_values_unchanged
    (w : World) (this a u : loc) (c p : obj) :
  holds w this a c ->
  objects w !! u = Some p ->
  p ⊆ c ->
  exists (w' : World) (a' : loc),
    updateConfig this u w = Some (tt, w')
    /\ holds w' this a' c.
Proof.
  intros Hh Hu Hsub. eexists _, _.
  split; [apply (updateConfig_run _ _ _ _ Hh _ _ Hu) |].
  rewrite (map_subseteq_union _ _ Hsub).
  apply (holds_updateConfig _ _ _ _ _ Hh).
Qed.

Lemma updateConfig_same_values_unchanged_witness :
  exists (w' : World) (a' : loc),
    updateConfig 0 1
      (mkWorld [to_obj factory_test; {[ "version" := VString "1.0.0" ]}]
               [mkApexFramework 0] [])
    = Some (tt, w')
    /\ holds w' 0 a' (to_obj factory_test).
Proof.
  apply (updateConfig_same_values_unchanged
           (mkWorld [to_obj factory_test; {[ "version" := VString "1.0.0" ]}]
                    [mkApexFramework 0] [])
           0 0 1 (to_obj factory_test) {[ "version" := VString "1.0.0" ]}).
  - split; reflexivity.
  - reflexivity.
  - apply map_singleton_subseteq_l. reflexivity.
Defined.

(** X4. Writing back what [getConfig] returned leaves the configuration
    as it was, also when the caller has deleted properties from the
    copy first: [updateConfig] cannot remove a property. *)
Theorem getConfig_updateConfig_roundtrip
    (w : World) (this a : loc) (c : obj) (ms : list mutation) :
  holds w this a c ->
  forallb is_delete ms = true ->
  exists (w' : World) (a' : loc),
    (let! r := getConfig this in
     do! mutate r ms in
     updateConfig this r) w = Some (tt, w')
    /\ holds w' this a' c.
Proof.
  intros Hh Hd.
  pose proof (holds_allocated _ _ _ _ Hh) as Hlt.
  set (w1 := with_objects w (objects w ++ [c])).
  assert (Hr : objects w1 !! length (objects w) = Some c)
    by by apply list_lookup_middle.
  set (w2 := with_objects w1 (<[length (objects w) := apply_mutations ms c]> (objects w1))).
  assert (Hh2 : holds w2 this a c).
  { apply holds_insert_ne; [by apply holds_alloc | lia]. }
  assert (Hr2 : objects w2 !! length (objects w) = Some (apply_mutations ms c)).
  { simpl. apply list_lookup_insert_eq. rewrite length_app. simpl. lia. }
  eexists _, _. split.
  { rewrite (bind_Some _ _ _ _ _ (getConfig_run _ _ _ _ Hh)).
    rewrite (bind_Some _ _ _ _ _ (mutate_run ms w1 _ c Hr)). fold w2.
    apply (updateConfig_run _ _ _ _ Hh2 _ _ Hr2). }
  rewrite (map_subseteq_union _ _ (deletions_subseteq ms c Hd c (reflexivity c))).
  apply (holds_updateConfig _ _ _ _ _ Hh2).
Qed.

Lemma getConfig_updateConfig_roundtrip_witness :
  exists (w' : World) (a' : loc),
    (let! r := getConfig 0 in
     do! mutate r [Delete "name"; Delete "environment"] in
     updateConfig 0 r) (mkWorld [to_obj factory_test] [mkApexFramework 0] [])
    = Some (tt, w')
    /\ holds w' 0 a' (to_obj factory_test).
Proof.
  apply (getConfig_updateConfig_roundtrip
           (mkWorld [to_obj factory_test] [mkApexFramework 0] []) 0 0
           (to_obj factory_test) [Delete "name"; Delete "environment"]).
  - split; reflexivity.
  - reflexivity.
Defined.

(** X5. [updateConfig] gives the holder an object of its own: after the
    call, whatever the caller assigns to or deletes from any object that
    existed before it (the object the holder was constructed with, the
    partial itself) does not change what [getConfig] returns. *)
Theorem updateConfig_severs_aliases
    (w : World) (this a u l : loc) (c p : obj) (ms : list mutation) :
  holds w this a c ->
  objects w !! u = Some p ->
  l < length (objects w) ->
  exists (r : loc) (w' : World),
    (do! updateConfig this u in
     do! mutate l ms in
     let! r := getConfig this in
     let! o := get_object r in
     ret (r, o)) w = Some ((r, p ∪ c), w').
Proof.
  intros Hh Hu Hl.
  pose proof (holds_updateConfig _ _ _ _ (p ∪ c) Hh) as Hh1.
  set (w1 := mkWorld (objects w ++ [p ∪ c])
               (<[this := mkApexFramework (length (objects w))]> (instances w))
               (console w)) in *.
  destruct (lookup_lt_is_Some_2 (objects w) l Hl) as [o Ho].
  assert (Ho1 : objects w1 !! l = Some o) by by apply lookup_app_l_Some.
  set (w2 := with_objects w1 (<[l := apply_mutations ms o]> (objects w1))).
  assert (Hh2 : holds w2 this (length (objects w)) (p ∪ c)).
  { apply holds_insert_ne; [done | lia]. }
  eexists _, _.
  rewrite (bind_Some _ _ _ _ _ (updateConfig_run _ _ _ _ Hh _ _ Hu)). fold w1.
  rewrite (bind_Some _ _ _ _ _ (mutate_run ms w1 l o Ho1)). fold w2.
  rewrite (bind_Some _ _ _ _ _ (getConfig_run _ _ _ _ Hh2)).
  erewrite bind_Some; [reflexivity |].
  apply get_object_run. simpl. by apply list_lookup_middle.
Qed.

Lemma updateConfig_severs_aliases_witness :
  exists (r : loc) (w' : World),
    (do! updateConfig 0 1 in
     do! mutate 0 [Assign "name" (VString "Mutated")] in
     let! r := getConfig 0 in
     let! o := get_object r in
     ret (r, o))
      (mkWorld [to_obj factory_test; {[ "version" := VString "2.0.0" ]}]
               [mkApexFramework 0] [])
    = Some ((r, {[ "version" := VString "2.0.0" ]} ∪ to_obj factory_test), w').
Proof.
  apply (updateConfig_severs_aliases
           (mkWorld [to_obj factory_test; {[ "version" := VString "2.0.0" ]}]
                    [mkApexFramework 0] [])
           0 0 1 0 (to_obj factory_test) {[ "version" := VString "2.0.0" ]}
           [Assign "name" (VString "Mutated")]).
  - split; reflexivity.
  - reflexivity.
  - simpl. lia.
Defined.

(** X6. Holders are independent under [updateConfig]: updating one
    holder leaves every other holder with the configuration object and
    the properties it had, also when both were constructed with the
    same object. *)
Theorem updateConfig_other_holder
    (w : World) (f1 f2 a b u : loc) (c d p : obj) :
  holds w f1 a c ->
  holds w f2 b d ->
  f1 <> f2 ->
  objects w !! u = Some p ->
  exists (r : loc) (w' w'' : World),
    updateConfig f1 u w = Some (tt, w')
    /\ holds w' f2 b d
    /\ getConfig f2 w' = Some (r, w'')
    /\ objects w'' !! r = Some d.
Proof.
  intros Hh1 [Hi2 Ho2] Hne Hu.
  assert (Hh2 : holds (mkWorld (objects w ++ [p ∪ c])
                         (<[f1 := mkApexFramework (length (objects w))]> (instances w))
                         (console w)) f2 b d).
  { split; simpl.
    - by rewrite list_lookup_insert_ne.
    - by apply lookup_app_l_Some. }
  eexists _, _, _.
  split; [apply (updateConfig_run _ _ _ _ Hh1 _ _ Hu) |].
  split; [exact Hh2 |].
  split; [apply (getConfig_run _ _ _ _ Hh2) |].
  simpl. by apply list_lookup_middle.
Qed.

Lemma updateConfig_other_holder_witness :
  exists (r : loc) (w' w'' : World),
    updateConfig 0 1
      (mkWorld [to_obj factory_test; {[ "name" := VString "Updated Project" ]}]
               [mkApexFramework 0; mkApexFramework 0] [])
    = Some (tt, w')
    /\ holds w' 1 0 (to_obj factory_test)
    /\ getConfig 1 w' = Some (r, w'')
    /\ objects w'' !! r = Some (to_obj factory_test).
Proof.
  apply (updateConfig_other_holder
           (mkWorld [to_obj factory_test; {[ "name" := VString "Updated Project" ]}]
                    [mkApexFramework 0; mkApexFramework 0] [])
           0 1 0 0 1 (to_obj factory_test) (to_obj factory_test)
           {[ "name" := VString "Updated Project" ]}).
  - split; reflexivity.
  - split; reflexivity.
  - discriminate.
  - reflexivity.
Defined.

(** X7. What [getConfig] returned is a snapshot: a later [updateConfig]
    changes the holder's configuration and leaves the object returned
    earlier with the properties it had. *)
Theorem getConfig_snapshot (w : World) (this a u : loc) (c p : obj) :
  holds w this a c ->
  objects w !! u = Some p ->
  exists (r a' : loc) (w' : World),
    (let! r := getConfig this in
     do! updateConfig this u in
     let! o := get_object r in
     ret (r, o)) w = Some ((r, c), w')
    /\ holds w' this a' (p ∪ c).
Proof.
  intros Hh Hu.
  pose proof (holds_alloc _ _ _ _ c Hh) as Hh1.
  set (w1 := with_objects w (objects w ++ [c])) in *.
  assert (Hu1 : objects w1 !! u = Some p) by by apply lookup_app_l_Some.
  pose proof (holds_updateConfig _ _ _ _ (p ∪ c) Hh1) as Hh2.
  eexists _, _, _. split.
  { rewrite (bind_Some _ _ _ _ _ (getConfig_run _ _ _ _ Hh)). fold w1.
    rewrite (bind_Some _ _ _ _ _ (updateConfig_run _ _ _ _ Hh1 _ _ Hu1)).
    erewrite bind_Some; [reflexivity |].
    apply get_object_run. simpl. apply lookup_app_l_Some.
    by apply list_lookup_middle. }
  exact Hh2.
Qed.

Lemma getConfig_snapshot_witness :
  exists (r a' : loc) (w' : World),
    (let! r := getConfig 0 in
     do! updateConfig 0 1 in
     let! o := get_object r in
     ret (r, o))
      (mkWorld [to_obj factory_test; {[ "name" := VString "Updated Project" ]}]
               [mkApexFramework 0] [])
    = Some ((r, to_obj factory_test), w')
    /\ holds w' 0 a' ({[ "name" := VString "Updated Project" ]} ∪ to_obj factory_test).
Proof.
  apply (getConfig_snapshot
           (mkWorld [to_obj factory_test; {[ "name" := VString "Updated Project" ]}]
                    [mkApexFramework 0] [])
           0 0 1 (to_obj factory_test) {[ "name" := VString "Updated Project" ]}).
  - split; reflexivity.
  - reflexivity.
Defined.

(** X8. After an update whose partial has [name] present and
    [undefined], [initialize] logs the text "undefined" as the project
    name; the two other lines show the merged version and environment. *)
Theorem initialize_logs_undefined_name
    (w : World) (this a u : loc) (c p : obj) :
  holds w this a c ->
  objects w !! u = Some p ->
  p !! "name" = Some VUndefined ->
  exists w' : World,
    (do! updateConfig this u in initialize this) w = Some (tt, w')
    /\ console w'
       = (console w
          ++ [ "🚀 APEX Enhanced Framework v" ++ ToString (prop (p ∪ c) "version")
                 ++ " initialized";
               "📋 Project: undefined";
               "🌍 Environment: " ++ ToString (prop (p ∪ c) "environment") ]%string)%list.
Proof.
  intros Hh Hu Hn.
  rewrite (bind_Some _ _ _ _ _ (updateConfig_run _ _ _ _ Hh _ _ Hu)).
  rewrite (initialize_run _ _ _ _ (holds_updateConfig _ _ _ _ (p ∪ c) Hh)).
  eexists. split; [reflexivity |]. simpl. unfold banner.
  assert (Hp : prop (p ∪ c) "name" = VUndefined).
  { unfold prop. by rewrite (lookup_union_Some_l p c _ _ Hn). }
  by rewrite Hp.
Qed.

Lemma initialize_logs_undefined_name_witness :
  exists w' : World,
    (do! updateConfig 0 1 in initialize 0)
      (mkWorld [to_obj test_project; {[ "name" := VUndefined ]}] [mkApexFramework 0] [])
    = Some (tt, w')
    /\ console w'
       = ([]
          ++ [ "🚀 APEX Enhanced Framework v"
                 ++ ToString (prop ({[ "name" := VUndefined ]} ∪ to_obj test_project) "version")
                 ++ " initialized";
               "📋 Project: undefined";
               "🌍 Environment: "
                 ++ ToString (prop ({[ "name" := VUndefined ]} ∪ to_obj test_project)
                                   "environment") ]%string)%list.
Proof.
  apply (initialize_logs_undefined_name
           (mkWorld [to_obj test_project; {[ "name" := VUndefined ]}] [mkApexFramework 0] [])
           0 0 1 (to_obj test_project) {[ "name" := VUndefined ]}).
  - split; reflexivity.
  - reflexivity.
  - reflexivity.
Defined.

(** X9. Calling [initialize] [n] times in a row logs the same three
    lines [n] times, after what the console already held, and changes
    neither the objects nor the instances. *)
Theorem initialize_repeated (n : nat) :
  forall (w : World) (this a : loc) (c : obj),
    holds w this a c ->
    exists w' : World,
      times n (initialize this) w = Some (tt, w')
      /\ console w' = (console w ++ concat (replicate n (banner c)))%list
      /\ objects w' = objects w
      /\ instances w' = instances w.
Proof.
  induction n as [| n IH]; intros w this a c Hh.
  - exists w. simpl. by rewrite (right_id_L [] app).
  - cbn [times replicate concat].
    rewrite (bind_Some _ _ _ _ _ (initialize_run _ _ _ _ Hh)).
    destruct (IH _ this a c (holds_console _ _ _ _ (console w ++ banner c)%list Hh))
      as (w' & Hrun & Hc & Ho & Hi).
    exists w'. split; [exact Hrun |].
    split; [| done]. rewrite Hc. cbn [console with_console].
    by rewrite <- app_assoc.
Qed.

Lemma initialize_repeated_witness :
  exists w' : World,
    times 2 (initialize 0) (mkWorld [to_obj test_project] [mkApexFramework 0] ["earlier line"])
    = Some (tt, w')
    /\ console w'
       = (["earlier line"] ++ concat (replicate 2 (banner (to_obj test_project))))%list
    /\ objects w' = [to_obj test_project]
    /\ instances w' = [mkApexFramework 0].
Proof.
  apply (initialize_repeated 2
           (mkWorld [to_obj test_project] [mkApexFramework 0] ["earlier line"]) 0 0
           (to_obj test_project)).
  split; reflexivity.
Defined.

(** X10. An update that gives every field it has a value of the declared
    type keeps the configuration a value of the interface: when the
    holder holds the object of [cfg] and the partial is the object of
    [p], the holder afterwards holds the object of [cfg] with the
    fields given in [p] replaced. *)
Theorem updateConfig_typed
    (w : World) (this a u : loc) (cfg : ApexConfig) (p : PartialApexConfig) :
  holds w this a (to_obj cfg) ->
  objects w !! u = Some (partial_obj p) ->
  exists (w' : World) (a' : loc),
    updateConfig this u w = Some (tt, w')
    /\ holds w' this a' (to_obj (merge_config cfg p)).
Proof.
  intros Hh Hu. eexists _, _.
  split; [apply (updateConfig_run _ _ _ _ Hh _ _ Hu) |].
  rewrite partial_obj_merge.
  apply (holds_updateConfig _ _ _ _ _ Hh).
Qed.

Lemma updateConfig_typed_witness :
  exists (w' : World) (a' : loc),
    updateConfig 0 1
      (mkWorld [ to_obj factory_test;
                 partial_obj (mkPartialApexConfig (Some "Updated Project") None (Some production)) ]
               [mkApexFramework 0] [])
    = Some (tt, w')
    /\ holds w' 0 a'
         (to_obj (merge_config factory_test
                    (mkPartialApexConfig (Some "Updated Project") None (Some production)))).
Proof.
  apply (updateConfig_typed
           (mkWorld [ to_obj factory_test;
                      partial_obj (mkPartialApexConfig (Some "Updated Project") None
                                     (Some production)) ]
                    [mkApexFramework 0] [])
           0 0 1 factory_test
           (mkPartialApexConfig (Some "Updated Project") None (Some production))).
  - split; reflexivity.
  - reflexivity.
Defined.
